(** * The email agent of [app/main.py]: a shallow embedding

    The program is a FastAPI endpoint in front of a two-node LangGraph
    pipeline.  Node 1 ([analyze_email]) asks a language model for a category,
    node 2 ([draft_reply]) asks it for a reply.  Both nodes wrap the model call
    in [try ... except Exception].

    Embedding choices.
    - A Python [str] is a list of Unicode code points ([N]).
    - [print] and the model client are effects: they are threaded through an
      explicit [World] (what was printed, which prompts were sent and what
      came back).  A computation may return or raise, and what it did to the
      world before raising stays done, as in Python.
    - Standard output is a UTF-8 text stream with the strict error handler.
      A [str] may hold lone surrogates (U+D800..U+DFFF), which that codec
      refuses: [print] of such a line raises [UnicodeEncodeError], and so
      does the JSON encoding of a response that holds one.
    - The model server is outside the program.  It is a [Variable] of the
      section: a function from the exchange so far and the prompt to an
      outcome.  Every theorem holds for every such server.
    - [str.upper] on ASCII is written out; the case mapping of the other code
      points belongs to the interpreter's Unicode database and is a
      [Variable] as well. *)

From Stdlib Require Import List NArith String Ascii Bool Lia.
From Stdlib Require DecimalString HexadecimalString.
Import ListNotations.

Local Open Scope N_scope.

(** ** Python strings *)

Module PyStr.

Definition codepoint := N.
Definition str := list codepoint.

(** A literal of the source, which is ASCII throughout. *)
Definition py (s : string) : str := map N_of_ascii (list_ascii_of_string s).

(** [str.isspace] on one code point: CPython's [_PyUnicode_IsWhitespace]. *)
Definition isspace (c : codepoint) : bool :=
  ((9 <=? c) && (c <=? 13)) || ((28 <=? c) && (c <=? 32))
  || (c =? 133) || (c =? 160) || (c =? 5760)
  || ((8192 <=? c) && (c <=? 8202))
  || (c =? 8232) || (c =? 8233) || (c =? 8239) || (c =? 8287)
  || (c =? 12288).

Fixpoint lstrip (s : str) : str :=
  match s with
  | [] => []
  | c :: t => if isspace c then lstrip t else s
  end.

Definition rstrip (s : str) : str := rev (lstrip (rev s)).

(** [s.strip()] with no argument. *)
Definition strip (s : str) : str := rstrip (lstrip s).

Fixpoint startswith (s p : str) : bool :=
  match p, s with
  | [], _ => true
  | _ :: _, [] => false
  | a :: p', b :: s' => (a =? b) && startswith s' p'
  end.

(** [sub in s]: does [sub] occur in [s] at some offset. *)
Fixpoint contains (sub s : str) : bool :=
  startswith s sub ||
  match s with
  | [] => false
  | _ :: t => contains sub t
  end.

(** [s[:n]] for [n >= 0]. *)
Definition slice_to (n : nat) (s : str) : str := firstn n s.

Definition dquote : str := [34].
Definition newline : str := [10].

(** A surrogate code point (U+D800..U+DFFF): a [str] may hold one, the UTF-8
    codec refuses it. *)
Definition is_surrogate (c : codepoint) : bool :=
  (55296 <=? c) && (c <=? 57343).

(** [s.encode("utf-8")] succeeds. *)
Definition utf8_encodable (s : str) : bool := negb (existsb is_surrogate s).

(** How many surrogates [s] starts with. *)
Fixpoint surrogate_run (s : str) : nat :=
  match s with
  | c :: t => if is_surrogate c then S (surrogate_run t) else O
  | [] => O
  end.

(** Where the codec stops: the index of the first surrogate, that code
    point, and the length of the run of surrogates it starts. *)
Fixpoint first_surrogate (i : nat) (s : str) : option (nat * codepoint * nat) :=
  match s with
  | [] => None
  | c :: t =>
      if is_surrogate c then Some (i, c, surrogate_run s)
      else first_surrogate (S i) t
  end.

Definition decimal (n : nat) : string :=
  DecimalString.NilEmpty.string_of_uint (Nat.to_uint n).

Definition hex (c : codepoint) : string :=
  HexadecimalString.NilEmpty.string_of_uint (N.to_hex_uint c).

(** [str(e)] for the [UnicodeEncodeError] of [s.encode("utf-8")]: one
    wording for a single surrogate, another for a run of them. *)
Definition utf8_error_message (s : str) : str :=
  match first_surrogate O s with
  | None => []
  | Some (i, c, 1%nat) =>
      py ("'utf-8' codec can't encode character '\u" ++ hex c
          ++ "' in position " ++ decimal i ++ ": surrogates not allowed")
  | Some (i, _, n) =>
      py ("'utf-8' codec can't encode characters in position " ++ decimal i
          ++ "-" ++ decimal (i + n - 1) ++ ": surrogates not allowed")
  end.

End PyStr.

Import PyStr.

(** ** Results, exceptions and the world *)

(** An instance of [Exception]; [str(e)] is its message. *)
Record exn : Type := Exception { message : str }.

Inductive result (A : Type) : Type :=
| Return (a : A)
| Raise (e : exn).
Arguments Return {A} a.
Arguments Raise {A} e.

(** One exchange with the model server: the prompt and what came back (the
    [content] of the response, or the exception). *)
Definition exchange : Type := (str * result str)%type.

Record World : Type := mkWorld {
  stdout : list str;          (* lines written by [print], oldest first *)
  llm_log : list exchange     (* calls of [llm.invoke], oldest first *)
}.

Definition M (A : Type) : Type := World -> result A * World.

Definition ret {A} (a : A) : M A := fun w => (Return a, w).

Definition raise {A} (e : exn) : M A := fun w => (Raise e, w).

Definition bind {A B} (m : M A) (k : A -> M B) : M B :=
  fun w =>
    match m w with
    | (Return a, w') => k a w'
    | (Raise e, w') => (Raise e, w')
    end.

(** [try: body except Exception as e: handler e]. *)
Definition try_except {A} (body : M A) (handler : exn -> M A) : M A :=
  fun w =>
    match body w with
    | (Return a, w') => (Return a, w')
    | (Raise e, w') => handler e w'
    end.

(** The exception the codec raises for a text it cannot encode. *)
Definition UnicodeEncodeError (s : str) : exn :=
  Exception (utf8_error_message s).

(** [print(line)]: the line goes to standard output, unless the stream
    cannot encode it; then nothing is written and the codec's exception is
    raised. *)
Definition print (line : str) : M unit :=
  fun w =>
    if utf8_encodable line
    then (Return tt, mkWorld (stdout w ++ [line]) (llm_log w))
    else (Raise (UnicodeEncodeError line), w).

Declare Scope py_scope.
Delimit Scope py_scope with py_m.
Notation "x <- m ;; k" := (bind m (fun x => k))
  (at level 61, m at next level, right associativity) : py_scope.
Notation "m ;; k" := (bind m (fun _ => k))
  (at level 61, right associativity) : py_scope.
Local Open Scope py_scope.

(** ** The state and the nodes' updates *)

(** [class AgentState(TypedDict)].  The nodes read [history] with
    [state.get('history', ...)], so that key may be absent; the other keys
    are read with [state[...]]. *)
Record AgentState : Type := mkState {
  email_content : str;
  history : option str;
  category : str;
  generated_reply : str
}.

(** What a node returns: a dict with one key, merged into the state by the
    graph. *)
Inductive Update : Type :=
| UpdCategory (c : str)             (* {"category": c} *)
| UpdReply (r : str).               (* {"generated_reply": r} *)

Definition merge (st : AgentState) (u : Update) : AgentState :=
  match u with
  | UpdCategory c =>
      mkState (email_content st) (history st) c (generated_reply st)
  | UpdReply r =>
      mkState (email_content st) (history st) (category st) r
  end.

(** [state.get('history', 'No previous history.')] *)
Definition get_history (st : AgentState) : str :=
  match history st with
  | Some h => h
  | None => py "No previous history."
  end.

Definition CALENDLY_LINK : str := py "https://cal.com/demo-link".

Definition URGENT : str := py "URGENT".
Definition LEAD : str := py "LEAD".
Definition SPAM : str := py "SPAM".
Definition OTHER : str := py "OTHER".

(** [valid = ["URGENT", "LEAD", "SPAM", "OTHER"]] *)
Definition valid : list str := [URGENT; LEAD; SPAM; OTHER].

Definition IGNORE : str := py "IGNORE".

Definition FALLBACK_REPLY : str :=
  py "Thank you for your email. We will respond shortly.".

(** [clean_reply]: the demo's sanitizer is [text.strip()]. *)
Definition clean_reply (text : str) : str := strip text.

(** ** The nodes, the graph and the endpoint *)

Section Agent.

(** [_PyUnicode_ToUpperFull] outside ASCII: one code point may become
    several. *)
Variable upper_full : codepoint -> str.

(** The model server behind [llm = ChatOllama(...)]: given the exchanges so
    far and a prompt, the text it answers with, or the exception the client
    raises (server unreachable, time-out, malformed response). *)
Variable llm : list exchange -> str -> result str.

Definition upper_cp (c : codepoint) : str :=
  if c <? 128
  then [if (97 <=? c) && (c <=? 122) then c - 32 else c]
  else upper_full c.

(** [s.upper()]: code point by code point. *)
Definition upper (s : str) : str := flat_map upper_cp s.

(** [llm.invoke([HumanMessage(content=prompt)]).content] *)
Definition llm_invoke (prompt : str) : M str :=
  fun w =>
    let r := llm (llm_log w) prompt in
    (r, mkWorld (stdout w) (llm_log w ++ [(prompt, r)])).

(** The f-string of [analyze_email]; a new line ends every source line. *)
Definition analyze_prompt (history_text email_text : str) : str :=
  newline
  ++ py "    You are an AI assistant." ++ newline
  ++ py "    Analyze the following email conversation:" ++ newline
  ++ py "    " ++ newline
  ++ py "    HISTORY: " ++ dquote ++ history_text ++ dquote ++ newline
  ++ py "    CURRENT EMAIL: " ++ dquote ++ email_text ++ dquote ++ newline
  ++ py "    " ++ newline
  ++ py "    Categorize into one of: URGENT, LEAD, SPAM, OTHER." ++ newline
  ++ py "    Return ONLY the category name." ++ newline
  ++ py "    ".

(** [response.content.strip().upper()] *)
Definition normalize (content : str) : str := upper (strip content).

(** [any(v in category for v in valid)] *)
Definition any_valid_in (category : str) : bool :=
  existsb (fun v => contains v category) valid.

(** Node 1. *)
Definition analyze_email (state : AgentState) : M Update :=
  print (py "--- ANALYZING EMAIL ---") ;;
  let email_text := email_content state in
  let history_text := get_history state in
  let prompt := analyze_prompt history_text email_text in
  try_except
    (content <- llm_invoke prompt ;;
     let category := normalize content in
     let category := if negb (any_valid_in category) then OTHER else category in
     print (py "Normalized category: " ++ category) ;;
     ret (UpdCategory category))
    (fun e =>
       print (py "Error in analyze_email: " ++ message e) ;;
       ret (UpdCategory OTHER)).

(** The f-string of [draft_reply]. *)
Definition draft_prompt (category history_text email_text : str) : str :=
  newline
  ++ py "    You are a helpful AI assistant." ++ newline
  ++ py "    Reply to the email based on category: " ++ category ++ newline
  ++ py "    " ++ newline
  ++ py "    HISTORY: " ++ dquote ++ history_text ++ dquote ++ newline
  ++ py "    EMAIL: " ++ dquote ++ email_text ++ dquote ++ newline
  ++ py "    " ++ newline
  ++ py "    Link to include: " ++ CALENDLY_LINK ++ newline
  ++ py "    Keep it professional and short." ++ newline
  ++ py "    ".

(** Node 2. *)
Definition draft_reply (state : AgentState) : M Update :=
  print (py "--- DRAFTING REPLY (Category: " ++ category state ++ py ") ---") ;;
  let category := category state in
  let email_text := email_content state in
  let history_text := get_history state in
  if contains SPAM category then ret (UpdReply IGNORE)
  else
    let prompt := draft_prompt category history_text email_text in
    try_except
      (raw_reply <- llm_invoke prompt ;;
       let cleaned_reply := clean_reply raw_reply in
       ret (UpdReply cleaned_reply))
      (fun e => ret (UpdReply FALLBACK_REPLY)).

(** The compiled graph: entry point [categorizer], edge to [writer], edge to
    [END].  Each node's dict is merged into the state before the next node
    runs. *)
Definition app_agent_invoke (initial_state : AgentState) : M AgentState :=
  u1 <- analyze_email initial_state ;;
  let s1 := merge initial_state u1 in
  u2 <- draft_reply s1 ;;
  ret (merge s1 u2).

(** [class RequestData(BaseModel)] *)
Record RequestData : Type := mkRequest {
  input : str;
  req_history : str       (* [history: str = ""] *)
}.

(** The two dicts [run_agent] returns. *)
Inductive ResponseBody : Type :=
| Success (category reply : str)  (* {"status": "success", "category", "reply"} *)
| Error (detail : str).           (* {"status": "error", "detail"} *)

(** The dict [run_agent] builds from the request: all four keys, category
    and reply empty. *)
Definition initial_state_of (q : RequestData) : AgentState :=
  mkState (input q) (Some (req_history q)) [] [].

(** [run_agent], over the workflow it invokes ([app_agent.invoke]). *)
Definition run_agent_with (invoke : AgentState -> M AgentState)
                          (q : RequestData) : M ResponseBody :=
  try_except
    (print (py "Processing email: " ++ slice_to 50 (input q) ++ py "...") ;;
     let initial_state := initial_state_of q in
     result <- invoke initial_state ;;
     ret (Success (category result) (generated_reply result)))
    (fun e => ret (Error (message e))).

Definition run_agent : RequestData -> M ResponseBody :=
  run_agent_with app_agent_invoke.

(** What FastAPI sends for a [def] route: the returned dict, encoded as
    UTF-8 JSON, with status 200; when the dict cannot be encoded, or an
    exception leaves the handler, a 500. *)
Record HttpResponse : Type := mkHttp {
  status_code : N;
  body : option ResponseBody
}.

(** The JSON text of the dict can be encoded: each of its values can. *)
Definition body_encodable (b : ResponseBody) : bool :=
  match b with
  | Success category reply => utf8_encodable category && utf8_encodable reply
  | Error detail => utf8_encodable detail
  end.

Definition post_agent_run_with (invoke : AgentState -> M AgentState)
                               (q : RequestData) (w : World)
  : HttpResponse * World :=
  match run_agent_with invoke q w with
  | (Return b, w') =>
      if body_encodable b then (mkHttp 200 (Some b), w')
      else (mkHttp 500 None, w')
  | (Raise _, w') => (mkHttp 500 None, w')
  end.

Definition post_agent_run : RequestData -> World -> HttpResponse * World :=
  post_agent_run_with app_agent_invoke.

End Agent.

(** ** Test doubles: concrete servers, states and requests *)

(** A Unicode table that leaves code points outside ASCII as they are; the
    concrete runs below use ASCII text only. *)
Definition ascii_table : codepoint -> str := fun c => [c].

(** A server that answers every prompt with [text]. *)
Definition llm_says (text : str) : list exchange -> str -> result str :=
  fun _ _ => Return text.

(** A server that cannot be reached. *)
Definition llm_down : list exchange -> str -> result str :=
  fun _ _ => Raise (Exception (py "connection refused")).

(** A server that follows a script, one outcome per call, and is down once
    the script is over. *)
Definition llm_script (outcomes : list (result str))
  : list exchange -> str -> result str :=
  fun log _ =>
    nth (List.length log) outcomes (Raise (Exception (py "connection refused"))).

Definition world0 : World := mkWorld [] [].

Definition faucet_state : AgentState :=
  mkState (py "Please fix my leaking faucet ASAP") (Some []) [] [].

Definition faucet_request : RequestData :=
  mkRequest (py "Please fix my leaking faucet ASAP") [].

(** A talkative classifier. *)
Definition verbose_spam : str := py "This looks like SPAM content".

Definition spam_state : AgentState :=
  mkState (py "You won a prize") (Some []) SPAM [].

(** A state node 1 hands over when the classifier answered
    ["not spam, a lead"]. *)
Definition not_spam_state : AgentState :=
  mkState (py "Can we meet on Monday?") (Some []) (py "NOT SPAM, A LEAD") [].

Definition urgent_state : AgentState :=
  mkState (py "Please fix my leaking faucet ASAP") (Some []) URGENT [].

(** A text that is one lone surrogate, U+D800. *)
Definition lone_surrogate : str := [55296].

(** A server whose client fails with a message that holds a lone
    surrogate. *)
Definition llm_garbled : list exchange -> str -> result str :=
  fun _ _ => Raise (Exception (py "bad reply " ++ lone_surrogate)).


(** The line [run_agent] prints first. *)
Definition request_line (q : RequestData) : str :=
  py "Processing email: " ++ slice_to 50 (input q) ++ py "...".

(** The world once [run_agent] has printed its first line. *)
Definition announced_request (q : RequestData) (w : World) : World :=
  mkWorld (stdout w ++ [request_line q]) (llm_log w).

(** A workflow that fails: what [app_agent.invoke] does when a node lets an
    exception through. *)
Definition broken_workflow (_ : AgentState) : M AgentState :=
  raise (Exception (py "'category'")).

(** The reading of "contains exactly one of the labels": [label] is one of
    the four, occurs in [s], and no other of the four does. *)
Definition exactly_one_label (label s : str) : Prop :=
  In label valid /\ contains label s = true /\
  forall v, In v valid -> v <> label -> contains v s = false.

(** ** Facts about [strip] *)

Module StripFacts.

Lemma lstrip_idempotent (s : str) : lstrip (lstrip s) = lstrip s.
Proof.
  induction s as [|c t IH]; simpl; [reflexivity|].
  destruct (isspace c) eqn:Hc; [exact IH|].
  simpl. rewrite Hc. reflexivity.
Qed.

(** A non-space code point at the end stops [lstrip] from eating it. *)
Lemma lstrip_snoc (s : str) (c : codepoint) :
  isspace c = false -> lstrip (s ++ [c]) = lstrip s ++ [c].
Proof.
  intros Hc. induction s as [|a t IH]; simpl.
  - rewrite Hc. reflexivity.
  - destruct (isspace a); [exact IH | reflexivity].
Qed.

Lemma rstrip_cons (c : codepoint) (t : str) :
  isspace c = false -> rstrip (c :: t) = c :: rstrip t.
Proof.
  intros Hc. unfold rstrip. simpl rev at 2.
  rewrite lstrip_snoc by exact Hc. rewrite rev_app_distr. reflexivity.
Qed.

Lemma rstrip_idempotent (s : str) : rstrip (rstrip s) = rstrip s.
Proof.
  unfold rstrip. rewrite rev_involutive, lstrip_idempotent. reflexivity.
Qed.

(** What [lstrip] returns is empty or starts with a non-space. *)
Lemma lstrip_head (s : str) :
  lstrip s = [] \/ exists c t, lstrip s = c :: t /\ isspace c = false.
Proof.
  induction s as [|c t IH]; simpl; [left; reflexivity|].
  destruct (isspace c) eqn:Hc; [exact IH|].
  right. exists c, t. split; [reflexivity | exact Hc].
Qed.

(** Stripping the right end keeps the left end stripped. *)
Lemma lstrip_rstrip_lstrip (s : str) :
  lstrip (rstrip (lstrip s)) = rstrip (lstrip s).
Proof.
  destruct (lstrip_head s) as [E | (c & t & E & Hc)]; rewrite E.
  - reflexivity.
  - rewrite rstrip_cons by exact Hc. simpl. rewrite Hc. reflexivity.
Qed.

Lemma strip_idempotent (s : str) : strip (strip s) = strip s.
Proof.
  unfold strip. rewrite lstrip_rstrip_lstrip. apply rstrip_idempotent.
Qed.

(** [strip] leaves no white space at either end. *)
Lemma strip_head (s : str) (c : codepoint) (t : str) :
  strip s = c :: t -> isspace c = false.
Proof.
  unfold strip. intros E.
  destruct (lstrip_head s) as [E0 | (c0 & t0 & E0 & Hc)]; rewrite E0 in E.
  - discriminate.
  - rewrite rstrip_cons in E by exact Hc. injection E as <- _. exact Hc.
Qed.

Lemma strip_last (s t : str) (c : codepoint) :
  strip s = t ++ [c] -> isspace c = false.
Proof.
  unfold strip, rstrip. intros E.
  apply (f_equal (@rev codepoint)) in E.
  rewrite rev_involutive, rev_app_distr in E. simpl in E.
  destruct (lstrip_head (rev (lstrip s))) as [E0 | (c0 & t0 & E0 & Hc)];
    rewrite E0 in E; [discriminate|].
  injection E as -> _. exact Hc.
Qed.

End StripFacts.

(** ** The sanitizer *)

(** C9: [clean_reply] is idempotent: sanitizing a sanitized text changes
    nothing, for every input text. *)
Theorem clean_reply_idempotent (x : str) :
  clean_reply (clean_reply x) = clean_reply x.
Proof. unfold clean_reply. apply StripFacts.strip_idempotent. Qed.

Example clean_reply_trims :
  clean_reply (py "  Dear Sir,  ") = py "Dear Sir,".
Proof. reflexivity. Qed.

(** ** What the UTF-8 codec accepts, and [print] *)

Module EncodingFacts.

(** A literal of the source holds no surrogate. *)
Lemma py_encodable (s : string) : utf8_encodable (py s) = true.
Proof.
  unfold utf8_encodable, py.
  induction s as [|a s IH]; [reflexivity|].
  cbn [list_ascii_of_string map existsb].
  assert (Ha : is_surrogate (N_of_ascii a) = false).
  { unfold is_surrogate. pose proof (N_ascii_bounded a) as Hb.
    apply andb_false_intro1, N.leb_gt. lia. }
  rewrite Ha. exact IH.
Qed.

Lemma encodable_app (a b : str) :
  utf8_encodable (a ++ b) = utf8_encodable a && utf8_encodable b.
Proof. unfold utf8_encodable. rewrite existsb_app. apply negb_orb. Qed.

(** The codec's own complaint can always be printed. *)
Lemma error_message_encodable (s : str) :
  utf8_encodable (utf8_error_message s) = true.
Proof.
  unfold utf8_error_message.
  destruct (first_surrogate O s) as [[[i c] [|[|n]]]|];
    solve [apply py_encodable | reflexivity].
Qed.

Lemma label_encodable (v : str) : In v valid -> utf8_encodable v = true.
Proof.
  intros Hin. simpl in Hin.
  destruct Hin as [<- | [<- | [<- | [<- | []]]]]; apply py_encodable.
Qed.

Lemma print_ok (line : str) (w : World) :
  utf8_encodable line = true ->
  print line w = (Return tt, mkWorld (stdout w ++ [line]) (llm_log w)).
Proof. intros H. unfold print. rewrite H. reflexivity. Qed.

Lemma print_fails (line : str) (w : World) :
  utf8_encodable line = false ->
  print line w = (Raise (UnicodeEncodeError line), w).
Proof. intros H. unfold print. rewrite H. reflexivity. Qed.

(** A line made of two literals around a text can be encoded when the text
    can. *)
Lemma framed_encodable (a b : string) (s : str) :
  utf8_encodable (py a ++ s ++ py b) = utf8_encodable s.
Proof.
  rewrite !encodable_app, !py_encodable, andb_true_r. reflexivity.
Qed.

Lemma prefixed_encodable (a : string) (s : str) :
  utf8_encodable (py a ++ s) = utf8_encodable s.
Proof. rewrite encodable_app, py_encodable. reflexivity. Qed.

End EncodingFacts.

(** ** The nodes *)

Arguments py : simpl never.

Section AgentFacts.

Variable upper_full : codepoint -> str.
Variable llm : list exchange -> str -> result str.

(** The prompts the two nodes send for a state. *)
Local Abbreviation prompt1 st :=
  (analyze_prompt (get_history st) (email_content st)).
Local Abbreviation prompt2 st :=
  (draft_prompt (category st) (get_history st) (email_content st)).

(** The category node 1 settles on for an answer, before it prints it. *)
Local Abbreviation picked out :=
  (if negb (any_valid_in (normalize upper_full out)) then OTHER
   else normalize upper_full out).

(** The line that opens node 2, and the world once it is printed. *)
Local Abbreviation line2 st :=
  (py "--- DRAFTING REPLY (Category: " ++ category st ++ py ") ---").
Local Abbreviation announced2 st w :=
  (mkWorld (stdout w ++ [line2 st]) (llm_log w)).

Import EncodingFacts.

Ltac enter_node :=
  unfold analyze_email, draft_reply, bind, try_except, llm_invoke, ret.

Ltac printed :=
  rewrite print_ok
    by (rewrite ?framed_encodable, ?prefixed_encodable,
          ?error_message_encodable, ?py_encodable;
        solve [reflexivity | assumption]);
  cbn [llm_log stdout].

Ltac not_printed :=
  rewrite print_fails
    by (rewrite ?framed_encodable, ?prefixed_encodable; assumption);
  cbn [llm_log stdout].

(** A whole run of node 1 when the server answers and the category can be
    printed. *)
Lemma analyze_email_answered (st : AgentState) (w : World) (out : str) :
  llm (llm_log w) (prompt1 st) = Return out ->
  utf8_encodable (picked out) = true ->
  analyze_email upper_full llm st w =
    (Return (UpdCategory (picked out)),
     mkWorld ((stdout w ++ [py "--- ANALYZING EMAIL ---"])
              ++ [py "Normalized category: " ++ picked out])
             (llm_log w ++ [(prompt1 st, Return out)])).
Proof.
  intros H Henc. enter_node. printed. rewrite H. printed. reflexivity.
Qed.

(** When the category cannot be printed, the [print] inside the [try]
    raises and the [except] branch takes over. *)
Lemma analyze_email_unprintable_answer
    (st : AgentState) (w : World) (out : str) :
  llm (llm_log w) (prompt1 st) = Return out ->
  utf8_encodable (picked out) = false ->
  analyze_email upper_full llm st w =
    (Return (UpdCategory OTHER),
     mkWorld ((stdout w ++ [py "--- ANALYZING EMAIL ---"])
              ++ [py "Error in analyze_email: "
                  ++ utf8_error_message (py "Normalized category: " ++ picked out)])
             (llm_log w ++ [(prompt1 st, Return out)])).
Proof.
  intros H Henc. enter_node. printed. rewrite H. not_printed.
  cbn [message UnicodeEncodeError]. printed. reflexivity.
Qed.

(** A whole run of node 1 when the client raises and the message of the
    exception can be printed. *)
Lemma analyze_email_failed (st : AgentState) (w : World) (e : exn) :
  llm (llm_log w) (prompt1 st) = Raise e ->
  utf8_encodable (message e) = true ->
  analyze_email upper_full llm st w =
    (Return (UpdCategory OTHER),
     mkWorld ((stdout w ++ [py "--- ANALYZING EMAIL ---"])
              ++ [py "Error in analyze_email: " ++ message e])
             (llm_log w ++ [(prompt1 st, Raise e)])).
Proof.
  intros H Henc. enter_node. printed. rewrite H. printed. reflexivity.
Qed.

(** When the message cannot be printed, the [print] of the [except] branch
    raises, and nothing catches that. *)
Lemma analyze_email_failure_escapes (st : AgentState) (w : World) (e : exn) :
  llm (llm_log w) (prompt1 st) = Raise e ->
  utf8_encodable (message e) = false ->
  analyze_email upper_full llm st w =
    (Raise (UnicodeEncodeError (py "Error in analyze_email: " ++ message e)),
     mkWorld (stdout w ++ [py "--- ANALYZING EMAIL ---"])
             (llm_log w ++ [(prompt1 st, Raise e)])).
Proof.
  intros H Henc. enter_node. printed. rewrite H. not_printed. reflexivity.
Qed.

(** Node 2 when its first line cannot be printed: it stops there. *)
Lemma draft_reply_unprintable (st : AgentState) (w : World) :
  utf8_encodable (category st) = false ->
  draft_reply llm st w = (Raise (UnicodeEncodeError (line2 st)), w).
Proof. intros Henc. enter_node. not_printed. reflexivity. Qed.

(** Node 2 on a category with [SPAM] in it. *)
Lemma draft_reply_short_circuit (st : AgentState) (w : World) :
  utf8_encodable (category st) = true ->
  contains SPAM (category st) = true ->
  draft_reply llm st w = (Return (UpdReply IGNORE), announced2 st w).
Proof. intros Henc H. enter_node. printed. rewrite H. reflexivity. Qed.

(** Node 2 on any other category: one call, whose outcome decides. *)
Lemma draft_reply_calls (st : AgentState) (w : World) :
  utf8_encodable (category st) = true ->
  contains SPAM (category st) = false ->
  draft_reply llm st w =
    (Return (UpdReply match llm (llm_log w) (prompt2 st) with
                      | Return raw => clean_reply raw
                      | Raise _ => FALLBACK_REPLY
                      end),
     mkWorld (stdout (announced2 st w))
             (llm_log w ++ [(prompt2 st, llm (llm_log w) (prompt2 st))])).
Proof.
  intros Henc H. enter_node. printed. rewrite H. cbn [llm_log stdout].
  destruct (llm (llm_log w) (prompt2 st)); reflexivity.
Qed.

Lemma any_valid_in_spec (c : str) :
  any_valid_in c = true <-> exists v, In v valid /\ contains v c = true.
Proof. unfold any_valid_in. apply existsb_exists. Qed.

Lemma any_valid_in_OTHER : any_valid_in OTHER = true.
Proof. reflexivity. Qed.

Lemma SPAM_in_SPAM : contains SPAM SPAM = true.
Proof. reflexivity. Qed.

(** A list is never itself with one more element at the end. *)
Lemma log_not_grown {A} (l : list A) (x : A) : l <> l ++ [x].
Proof.
  intros E. apply (f_equal (@List.length A)) in E.
  rewrite length_app in E. simpl in E. lia.
Qed.

(** *** Node 1: Categorize *)

(** C1, as the code has it: when the server's answer, stripped and then
    uppercased, contains one of the four labels and can be printed, the
    category is that whole normalised answer, not the label found in it; the
    category is the label itself when the normalised answer is exactly the
    label. *)
Theorem analyze_email_keeps_normalized_output
    (st : AgentState) (w : World) (out label : str) :
  llm (llm_log w) (prompt1 st) = Return out ->
  In label valid ->
  contains label (normalize upper_full out) = true ->
  utf8_encodable (normalize upper_full out) = true ->
  fst (analyze_email upper_full llm st w)
    = Return (UpdCategory (normalize upper_full out)) /\
  (normalize upper_full out = label ->
   fst (analyze_email upper_full llm st w) = Return (UpdCategory label)).
Proof.
  intros Hout Hin Hsub Henc.
  assert (Hany : any_valid_in (normalize upper_full out) = true)
    by (apply any_valid_in_spec; exists label; auto).
  assert (Hrun : fst (analyze_email upper_full llm st w)
                 = Return (UpdCategory (normalize upper_full out))).
  { rewrite (analyze_email_answered st w out Hout); rewrite Hany; cbn [negb].
    - reflexivity.
    - exact Henc. }
  split; [exact Hrun|].
  intros E. rewrite Hrun, E. reflexivity.
Qed.

(** Node 1 with the world it leaves, when a failure of the client can be
    printed: the category passes the node's own validation and can be
    printed, it is [OTHER] or the whole normalised answer, and the log has
    grown by the one call. *)
Lemma analyze_email_run (st : AgentState) (w : World) :
  (forall e, llm (llm_log w) (prompt1 st) = Raise e ->
             utf8_encodable (message e) = true) ->
  exists c w1,
    analyze_email upper_full llm st w = (Return (UpdCategory c), w1) /\
    any_valid_in c = true /\
    utf8_encodable c = true /\
    (c = OTHER \/
     exists out, llm (llm_log w) (prompt1 st) = Return out /\
                 c = normalize upper_full out) /\
    llm_log w1 = llm_log w ++ [(prompt1 st, llm (llm_log w) (prompt1 st))].
Proof.
  intros Hmsg.
  destruct (llm (llm_log w) (prompt1 st)) as [out|e] eqn:Hllm.
  - destruct (utf8_encodable (picked out)) eqn:Henc.
    + rewrite (analyze_email_answered st w out Hllm Henc).
      do 2 eexists. split; [reflexivity|].
      split; [|split; [exact Henc | split; [|reflexivity]]].
      * destruct (any_valid_in (normalize upper_full out)) eqn:Hany;
          [exact Hany | reflexivity].
      * destruct (any_valid_in (normalize upper_full out)); cbn [negb];
          [right; exists out; split; reflexivity | left; reflexivity].
    + rewrite (analyze_email_unprintable_answer st w out Hllm Henc).
      do 2 eexists. split; [reflexivity|].
      split; [reflexivity|]. split; [apply py_encodable|].
      split; [left; reflexivity | reflexivity].
  - rewrite (analyze_email_failed st w e Hllm (Hmsg e eq_refl)).
    do 2 eexists. split; [reflexivity|].
    split; [reflexivity|]. split; [apply py_encodable|].
    split; [left; reflexivity | reflexivity].
Qed.

(** C2, as the code has it: when the client answers, or raises an exception
    whose message can be printed, node 1 returns a category that contains one
    of the four labels: either [OTHER] or the whole normalised answer. *)
Theorem analyze_email_category_has_label (st : AgentState) (w : World) :
  (forall e, llm (llm_log w) (prompt1 st) = Raise e ->
             utf8_encodable (message e) = true) ->
  exists c,
    fst (analyze_email upper_full llm st w) = Return (UpdCategory c) /\
    (exists v, In v valid /\ contains v c = true) /\
    (c = OTHER \/
     exists out, llm (llm_log w) (prompt1 st) = Return out /\
                 c = normalize upper_full out).
Proof.
  intros Hmsg.
  destruct (analyze_email_run st w Hmsg) as (c & w1 & E & Hany & _ & Hc & _).
  exists c. rewrite E. split; [reflexivity|]. split; [|exact Hc].
  apply any_valid_in_spec. exact Hany.
Qed.

(** C5: when the server's answer, stripped and uppercased, contains none of
    the four labels, the category is [OTHER]. *)
Theorem analyze_email_no_label_is_OTHER
    (st : AgentState) (w : World) (out : str) :
  llm (llm_log w) (prompt1 st) = Return out ->
  (forall v, In v valid -> contains v (normalize upper_full out) = false) ->
  fst (analyze_email upper_full llm st w) = Return (UpdCategory OTHER).
Proof.
  intros Hout Hnone.
  assert (Hany : any_valid_in (normalize upper_full out) = false).
  { destruct (any_valid_in (normalize upper_full out)) eqn:Hany; [|reflexivity].
    apply any_valid_in_spec in Hany. destruct Hany as (v & Hin & Hsub).
    rewrite (Hnone v Hin) in Hsub. discriminate. }
  rewrite (analyze_email_answered st w out Hout); rewrite Hany; cbn [negb].
  - reflexivity.
  - apply py_encodable.
Qed.

(** When the client raises an exception whose message can be printed, node 1
    returns with category [OTHER] and the graph goes on to node 2. *)
Lemma analyze_email_swallows_failure
    (st : AgentState) (w : World) (e : exn) :
  llm (llm_log w) (prompt1 st) = Raise e ->
  utf8_encodable (message e) = true ->
  exists w',
    analyze_email upper_full llm st w = (Return (UpdCategory OTHER), w') /\
    app_agent_invoke upper_full llm st w =
      (u2 <- draft_reply llm (merge st (UpdCategory OTHER)) ;;
       ret (merge (merge st (UpdCategory OTHER)) u2)) w'.
Proof.
  intros Hllm Henc. eexists. split.
  - apply (analyze_email_failed st w e Hllm Henc).
  - unfold app_agent_invoke.
    unfold bind at 1. rewrite (analyze_email_failed st w e Hllm Henc).
    reflexivity.
Qed.

(** C6, where the code falls short of it: when the client raises an
    exception whose message cannot be printed, the [print] in the [except]
    branch raises in its turn; that exception leaves node 1, and the graph
    with it, after the one call. *)
Theorem analyze_email_unprintable_failure_escapes
    (st : AgentState) (w : World) (e : exn) :
  llm (llm_log w) (prompt1 st) = Raise e ->
  utf8_encodable (message e) = false ->
  fst (analyze_email upper_full llm st w)
    = Raise (UnicodeEncodeError (py "Error in analyze_email: " ++ message e)) /\
  fst (app_agent_invoke upper_full llm st w)
    = Raise (UnicodeEncodeError (py "Error in analyze_email: " ++ message e)).
Proof.
  intros Hllm Henc. split.
  - rewrite (analyze_email_failure_escapes st w e Hllm Henc). reflexivity.
  - unfold app_agent_invoke, bind.
    rewrite (analyze_email_failure_escapes st w e Hllm Henc). reflexivity.
Qed.

(** *** Node 2: Draft Reply *)

(** C3, as the code has it: for a state whose category does not contain
    [SPAM] and can be printed, when the server answers the drafting prompt,
    node 2 makes exactly that one call and the reply is [clean_reply] of the
    raw answer. *)
Theorem draft_reply_sanitizes_answer
    (st : AgentState) (w : World) (raw : str) :
  contains SPAM (category st) = false ->
  utf8_encodable (category st) = true ->
  llm (llm_log w) (prompt2 st) = Return raw ->
  fst (draft_reply llm st w) = Return (UpdReply (clean_reply raw)) /\
  llm_log (snd (draft_reply llm st w)) =
    llm_log w ++ [(prompt2 st, Return raw)].
Proof.
  intros Hcat Henc Hllm. rewrite (draft_reply_calls st w Henc Hcat), Hllm.
  split; reflexivity.
Qed.

(** Of the four labels, only [SPAM] contains [SPAM]: on a state whose
    category is one of the other three labels, node 2 calls the model. *)
Lemma other_labels_lack_SPAM (c : str) :
  In c valid -> c <> SPAM -> contains SPAM c = false.
Proof.
  intros Hin Hneq. simpl in Hin.
  destruct Hin as [<- | [<- | [<- | [<- | []]]]];
    solve [reflexivity | contradiction Hneq; reflexivity].
Qed.

(** C4: for a state whose category is [SPAM], the reply is ["IGNORE"] and
    the log of model calls is what it was: node 2 does not call the model. *)
Theorem draft_reply_ignores_SPAM (st : AgentState) (w : World) :
  category st = SPAM ->
  fst (draft_reply llm st w) = Return (UpdReply IGNORE) /\
  llm_log (snd (draft_reply llm st w)) = llm_log w.
Proof.
  intros Hcat.
  assert (Hsub : contains SPAM (category st) = true)
    by (rewrite Hcat; exact SPAM_in_SPAM).
  assert (Henc : utf8_encodable (category st) = true)
    by (rewrite Hcat; apply py_encodable).
  rewrite (draft_reply_short_circuit st w Henc Hsub). split; reflexivity.
Qed.

(** The test of node 2 is containment: for a state whose category has [SPAM]
    anywhere in it and can be printed, the reply is ["IGNORE"] and the model
    is not called. *)
Lemma draft_reply_ignores_any_SPAM_substring (st : AgentState) (w : World) :
  contains SPAM (category st) = true ->
  utf8_encodable (category st) = true ->
  fst (draft_reply llm st w) = Return (UpdReply IGNORE) /\
  llm_log (snd (draft_reply llm st w)) = llm_log w.
Proof.
  intros Hsub Henc. rewrite (draft_reply_short_circuit st w Henc Hsub).
  split; reflexivity.
Qed.


(** C7: if during a run of node 2 the model client was called and raised
    (the run added to the log a call that ended in an exception), then the
    node returned, no exception left it, and the reply is the fixed
    acknowledgment. *)
Theorem draft_reply_swallows_failure
    (st : AgentState) (w : World) (p : str) (e : exn) :
  llm_log (snd (draft_reply llm st w)) = llm_log w ++ [(p, Raise e)] ->
  fst (draft_reply llm st w) = Return (UpdReply FALLBACK_REPLY).
Proof.
  destruct (utf8_encodable (category st)) eqn:Henc.
  - destruct (contains SPAM (category st)) eqn:Hcat.
    + rewrite (draft_reply_short_circuit st w Henc Hcat).
      cbn [fst snd llm_log].
      intros E. destruct (log_not_grown _ _ E).
    + rewrite (draft_reply_calls st w Henc Hcat). cbn [fst snd llm_log].
      intros E. apply app_inv_head in E. injection E as _ E.
      rewrite E. reflexivity.
  - rewrite (draft_reply_unprintable st w Henc). cbn [fst snd].
    intros E. destruct (log_not_grown _ _ E).
Qed.

(** In the other direction: on a category without [SPAM] that can be
    printed, a server that fails on the drafting prompt does make the run
    log a failed call. *)
Lemma draft_reply_failure_is_logged
    (st : AgentState) (w : World) (e : exn) :
  utf8_encodable (category st) = true ->
  contains SPAM (category st) = false ->
  llm (llm_log w) (prompt2 st) = Raise e ->
  llm_log (snd (draft_reply llm st w)) =
    llm_log w ++ [(prompt2 st, Raise e)].
Proof.
  intros Henc Hcat Hllm.
  rewrite (draft_reply_calls st w Henc Hcat), Hllm. reflexivity.
Qed.

(** Node 2 with the world it leaves, for a category that can be printed. *)
Lemma draft_reply_run (st : AgentState) (w : World) :
  utf8_encodable (category st) = true ->
  exists r w2,
    draft_reply llm st w = (Return (UpdReply r), w2) /\
    clean_reply r = r /\
    (contains SPAM (category st) = true -> r = IGNORE) /\
    llm_log w2 =
      llm_log w ++
      (if contains SPAM (category st) then []
       else [(prompt2 st, llm (llm_log w) (prompt2 st))]).
Proof.
  intros Henc. destruct (contains SPAM (category st)) eqn:Hcat.
  - rewrite (draft_reply_short_circuit st w Henc Hcat).
    do 2 eexists. split; [reflexivity|]. split; [reflexivity|].
    split; [reflexivity|]. cbn [llm_log]. rewrite app_nil_r. reflexivity.
  - rewrite (draft_reply_calls st w Henc Hcat).
    do 2 eexists. split; [reflexivity|].
    split; [|split; [discriminate|reflexivity]].
    destruct (llm (llm_log w) _); [|reflexivity].
    unfold clean_reply. apply StripFacts.strip_idempotent.
Qed.

(** Node 2 never takes a call out of the log, whatever becomes of it. *)
Lemma draft_reply_log_grows (st : AgentState) (w : World) :
  exists more, llm_log (snd (draft_reply llm st w)) = llm_log w ++ more.
Proof.
  destruct (utf8_encodable (category st)) eqn:Henc.
  - destruct (draft_reply_run st w Henc) as (r & w2 & E & _ & _ & Hlog).
    rewrite E. eexists. exact Hlog.
  - rewrite (draft_reply_unprintable st w Henc).
    exists []. cbn [snd]. rewrite app_nil_r. reflexivity.
Qed.

(** The log after node 1, in each of its four courses. *)
Lemma analyze_email_log (st : AgentState) (w : World) :
  llm_log (snd (analyze_email upper_full llm st w)) =
    llm_log w ++ [(prompt1 st, llm (llm_log w) (prompt1 st))].
Proof.
  destruct (llm (llm_log w) (prompt1 st)) as [out|e] eqn:Hllm.
  - destruct (utf8_encodable (picked out)) eqn:Henc.
    + rewrite (analyze_email_answered st w out Hllm Henc). reflexivity.
    + rewrite (analyze_email_unprintable_answer st w out Hllm Henc).
      reflexivity.
  - destruct (utf8_encodable (message e)) eqn:Henc.
    + rewrite (analyze_email_failed st w e Hllm Henc). reflexivity.
    + rewrite (analyze_email_failure_escapes st w e Hllm Henc). reflexivity.
Qed.

End AgentFacts.

(** ** The endpoint *)

(** [run_agent] over any workflow: when its first line cannot be printed the
    [except] branch answers before the workflow is run; otherwise the
    workflow decides. *)
Lemma run_agent_with_eq
    (invoke : AgentState -> M AgentState) (q : RequestData) (w : World) :
  run_agent_with invoke q w =
    if utf8_encodable (slice_to 50 (input q)) then
      match invoke (initial_state_of q) (announced_request q w) with
      | (Return final, w') =>
          (Return (Success (category final) (generated_reply final)), w')
      | (Raise e, w') => (Return (Error (message e)), w')
      end
    else (Return (Error (utf8_error_message (request_line q))), w).
Proof.
  unfold run_agent_with, try_except, bind, ret.
  fold (request_line q).
  destruct (utf8_encodable (slice_to 50 (input q))) eqn:Henc.
  - rewrite EncodingFacts.print_ok
      by (unfold request_line; rewrite EncodingFacts.framed_encodable;
          exact Henc).
    change (mkWorld (stdout w ++ [request_line q]) (llm_log w))
      with (announced_request q w).
    destruct (invoke (initial_state_of q) (announced_request q w))
      as [[final|e] w']; reflexivity.
  - rewrite EncodingFacts.print_fails
      by (unfold request_line; rewrite EncodingFacts.framed_encodable;
          exact Henc).
    reflexivity.
Qed.

(** What the caller of the endpoint gets when the first line can be
    printed: status 200 with the success body when the workflow returns,
    with the error body when it raises, provided the body can be encoded;
    status 500 when it cannot. *)
Lemma post_agent_run_with_eq
    (invoke : AgentState -> M AgentState) (q : RequestData) (w : World) :
  utf8_encodable (slice_to 50 (input q)) = true ->
  post_agent_run_with invoke q w =
    match invoke (initial_state_of q) (announced_request q w) with
    | (Return final, w') =>
        if utf8_encodable (category final)
           && utf8_encodable (generated_reply final)
        then (mkHttp 200
                (Some (Success (category final) (generated_reply final))), w')
        else (mkHttp 500 None, w')
    | (Raise e, w') =>
        if utf8_encodable (message e)
        then (mkHttp 200 (Some (Error (message e))), w')
        else (mkHttp 500 None, w')
    end.
Proof.
  intros Henc. unfold post_agent_run_with.
  rewrite run_agent_with_eq, Henc.
  destruct (invoke (initial_state_of q) (announced_request q w))
    as [[final|e] w']; reflexivity.
Qed.

(** A request whose first fifty code points cannot be printed is answered
    with the error body, status 200, and the workflow is not run. *)
Lemma post_agent_run_unprintable_input
    (invoke : AgentState -> M AgentState) (q : RequestData) (w : World) :
  utf8_encodable (slice_to 50 (input q)) = false ->
  post_agent_run_with invoke q w =
    (mkHttp 200 (Some (Error (utf8_error_message (request_line q)))), w).
Proof.
  intros Henc. unfold post_agent_run_with.
  rewrite run_agent_with_eq, Henc. cbn [body_encodable].
  rewrite EncodingFacts.error_message_encodable. reflexivity.
Qed.

(** C8, where the code falls short of it: the workflow completes, but the
    reply of its final state holds a lone surrogate.  [run_agent] returns
    the success dict; its JSON text cannot be encoded, and the caller gets
    status 500 and no body, not the success body with status 200. *)
Theorem post_agent_run_unencodable_reply_is_500
    (invoke : AgentState -> M AgentState) (q : RequestData) (w : World)
    (final : AgentState) (w' : World) :
  utf8_encodable (slice_to 50 (input q)) = true ->
  invoke (initial_state_of q) (announced_request q w) = (Return final, w') ->
  utf8_encodable (generated_reply final) = false ->
  fst (run_agent_with invoke q w)
    = Return (Success (category final) (generated_reply final)) /\
  post_agent_run_with invoke q w = (mkHttp 500 None, w').
Proof.
  intros Hline Hrun Hreply. split.
  - rewrite run_agent_with_eq, Hline, Hrun. reflexivity.
  - rewrite (post_agent_run_with_eq invoke q w Hline), Hrun, Hreply.
    rewrite andb_false_r. reflexivity.
Qed.
(** ** Concrete runs *)

(** *** Where the specification and the code part *)

(** C1 as stated fails: the classifier answers "This looks like SPAM
    content"; normalised, that contains [SPAM] and none of the other three
    labels, yet the category is the whole normalised sentence, not [SPAM]. *)
Lemma verbose_answer_category_is_not_the_label :
  llm_says verbose_spam (llm_log world0)
    (analyze_prompt (get_history faucet_state) (email_content faucet_state))
    = Return verbose_spam /\
  exactly_one_label SPAM (normalize ascii_table verbose_spam) /\
  fst (analyze_email ascii_table (llm_says verbose_spam) faucet_state world0)
    = Return (UpdCategory (py "THIS LOOKS LIKE SPAM CONTENT")) /\
  Return (UpdCategory (py "THIS LOOKS LIKE SPAM CONTENT"))
    <> Return (UpdCategory SPAM).
Proof.
  split; [reflexivity|]. split; [|split; [reflexivity | discriminate]].
  split; [simpl; auto|]. split; [reflexivity|].
  intros v Hin Hneq. simpl in Hin.
  destruct Hin as [<- | [<- | [<- | [<- | []]]]];
    solve [reflexivity | contradiction Hneq; reflexivity].
Qed.

(** C2 as stated fails on the same answer: the category node 1 returns is
    none of the four labels. *)
Lemma verbose_answer_category_is_not_valid :
  fst (analyze_email ascii_table (llm_says verbose_spam) faucet_state world0)
    = Return (UpdCategory (py "THIS LOOKS LIKE SPAM CONTENT")) /\
  ~ In (py "THIS LOOKS LIKE SPAM CONTENT") valid.
Proof.
  split; [reflexivity|].
  intros Hin. simpl in Hin.
  destruct Hin as [H | [H | [H | [H | []]]]]; discriminate H.
Qed.

(** C3 as stated fails: the category "NOT SPAM, A LEAD" is not [SPAM] and
    the server would answer, yet node 2 replies ["IGNORE"], which is not the
    sanitized answer, and sends nothing to the model. *)
Lemma not_spam_category_is_ignored :
  category not_spam_state <> SPAM /\
  llm_says (py " Monday suits us. ") (llm_log world0)
    (draft_prompt (category not_spam_state) (get_history not_spam_state)
                  (email_content not_spam_state))
    = Return (py " Monday suits us. ") /\
  fst (draft_reply (llm_says (py " Monday suits us. ")) not_spam_state world0)
    = Return (UpdReply IGNORE) /\
  IGNORE <> clean_reply (py " Monday suits us. ") /\
  llm_log (snd (draft_reply (llm_says (py " Monday suits us. "))
                            not_spam_state world0)) = [].
Proof.
  split; [discriminate|]. split; [reflexivity|]. split; [reflexivity|].
  split; [discriminate | reflexivity].
Qed.

(** Such a state is what node 1 hands to node 2 when the classifier says
    "not spam, a lead": the request ends with that category and ["IGNORE"]. *)
Example not_spam_end_to_end :
  fst (run_agent ascii_table
         (llm_script [Return (py "not spam, a lead");
                      Return (py " Monday suits us. ")])
         (mkRequest (py "Can we meet on Monday?") []) world0)
  = Return (Success (py "NOT SPAM, A LEAD") IGNORE).
Proof. reflexivity. Qed.

(** *** The theorems at concrete inputs *)

(** C1: the classifier answers " spam" and a new line; the category is
    [SPAM]. *)
Lemma analyze_email_keeps_normalized_output_witness :
  In SPAM valid /\
  contains SPAM (normalize ascii_table (py " spam" ++ newline)) = true /\
  fst (analyze_email ascii_table (llm_says (py " spam" ++ newline))
         faucet_state world0)
    = Return (UpdCategory SPAM).
Proof.
  split; [simpl; auto|]. split; [reflexivity|].
  apply (analyze_email_keeps_normalized_output ascii_table
           (llm_says (py " spam" ++ newline)) faucet_state world0
           (py " spam" ++ newline) SPAM);
    [reflexivity | simpl; auto | reflexivity | reflexivity | reflexivity].
Defined.

(** C2: the server is down, and says so in words that can be printed. *)
Lemma analyze_email_category_has_label_witness :
  exists c,
    fst (analyze_email ascii_table llm_down faucet_state world0)
      = Return (UpdCategory c) /\
    (exists v, In v valid /\ contains v c = true) /\
    (c = OTHER \/
     exists out,
       llm_down (llm_log world0)
         (analyze_prompt (get_history faucet_state)
                         (email_content faucet_state)) = Return out /\
       c = normalize ascii_table out).
Proof.
  apply (analyze_email_category_has_label ascii_table llm_down
           faucet_state world0).
  intros e He. injection He as <-. reflexivity.
Defined.

(** C5: the classifier answers the empty string. *)
Lemma analyze_email_no_label_is_OTHER_witness :
  (forall v, In v valid -> contains v (normalize ascii_table []) = false) /\
  fst (analyze_email ascii_table (llm_says []) faucet_state world0)
    = Return (UpdCategory OTHER).
Proof.
  assert (Hnone : forall v, In v valid ->
                   contains v (normalize ascii_table []) = false).
  { intros v Hin. simpl in Hin.
    destruct Hin as [<- | [<- | [<- | [<- | []]]]]; reflexivity. }
  split; [exact Hnone|].
  apply (analyze_email_no_label_is_OTHER ascii_table (llm_says [])
           faucet_state world0 []); [reflexivity | exact Hnone].
Defined.

(** C6: the client fails with a message that holds a lone surrogate; the
    exception of the [print] leaves node 1 and the graph. *)
Lemma analyze_email_unprintable_failure_escapes_witness :
  utf8_encodable (py "bad reply " ++ lone_surrogate) = false /\
  fst (analyze_email ascii_table llm_garbled faucet_state world0)
    = Raise (Exception
        (py "'utf-8' codec can't encode character '\ud800' in position 34: surrogates not allowed")) /\
  fst (app_agent_invoke ascii_table llm_garbled faucet_state world0)
    = Raise (Exception
        (py "'utf-8' codec can't encode character '\ud800' in position 34: surrogates not allowed")).
Proof.
  split; [reflexivity|].
  apply (analyze_email_unprintable_failure_escapes ascii_table llm_garbled
           faucet_state world0
           (Exception (py "bad reply " ++ lone_surrogate)));
    reflexivity.
Defined.

(** C3: category [URGENT], the server answers with blanks around the text. *)
Lemma draft_reply_sanitizes_answer_witness :
  contains SPAM (category urgent_state) = false /\
  fst (draft_reply (llm_says (py " Monday suits us. ")) urgent_state world0)
    = Return (UpdReply (py "Monday suits us.")) /\
  List.length
    (llm_log (snd (draft_reply (llm_says (py " Monday suits us. "))
                               urgent_state world0))) = 1%nat.
Proof.
  split; [reflexivity|].
  destruct (draft_reply_sanitizes_answer (llm_says (py " Monday suits us. "))
              urgent_state world0 (py " Monday suits us. ")
              eq_refl eq_refl eq_refl) as [Hreply Hlog].
  split; [exact Hreply|].
  rewrite Hlog. reflexivity.
Defined.

(** C4: category [SPAM], with a server that would answer. *)
Lemma draft_reply_ignores_SPAM_witness :
  fst (draft_reply (llm_says (py "Dear winner")) spam_state world0)
    = Return (UpdReply IGNORE) /\
  llm_log (snd (draft_reply (llm_says (py "Dear winner")) spam_state world0))
    = [].
Proof.
  apply (draft_reply_ignores_SPAM (llm_says (py "Dear winner"))
           spam_state world0).
  reflexivity.
Defined.


(** The containment test at work on a category that can be printed. *)
Example draft_reply_not_spam_is_ignored :
  fst (draft_reply (llm_says (py "Dear winner")) not_spam_state world0)
    = Return (UpdReply IGNORE).
Proof. reflexivity. Qed.

(** C7: category [URGENT], the server is down while node 2 runs. *)
Lemma draft_reply_swallows_failure_witness :
  llm_log (snd (draft_reply llm_down urgent_state world0))
    = [(draft_prompt URGENT [] (py "Please fix my leaking faucet ASAP"),
        Raise (Exception (py "connection refused")))] /\
  fst (draft_reply llm_down urgent_state world0)
    = Return (UpdReply FALLBACK_REPLY).
Proof.
  split; [reflexivity|].
  apply (draft_reply_swallows_failure llm_down urgent_state world0
           (draft_prompt URGENT [] (py "Please fix my leaking faucet ASAP"))
           (Exception (py "connection refused"))).
  reflexivity.
Defined.

(** C8: the classifier answers "lead", the drafter a lone surrogate: the
    workflow completes, [run_agent] returns the success dict, the caller
    gets a 500. *)
Lemma post_agent_run_unencodable_reply_is_500_witness :
  fst (run_agent ascii_table
         (llm_script [Return (py "lead"); Return lone_surrogate])
         faucet_request world0)
    = Return (Success LEAD lone_surrogate) /\
  fst (post_agent_run ascii_table
         (llm_script [Return (py "lead"); Return lone_surrogate])
         faucet_request world0)
    = mkHttp 500 None.
Proof.
  pose (wf := app_agent_invoke ascii_table
                (llm_script [Return (py "lead"); Return lone_surrogate])).
  destruct (post_agent_run_unencodable_reply_is_500 wf faucet_request world0
              (mkState (input faucet_request) (Some []) LEAD lone_surrogate)
              (snd (wf (initial_state_of faucet_request)
                       (announced_request faucet_request world0)))
              eq_refl eq_refl eq_refl) as [Hdict Hresp].
  split; [exact Hdict|].
  unfold post_agent_run. fold wf. rewrite Hresp. reflexivity.
Defined.

(** *** The scenarios of the specification *)

(** The classifier answers "URGENT", the drafter a text with blanks around
    it. *)
Example scenario_urgent :
  fst (run_agent ascii_table
         (llm_script [Return (py "URGENT");
                      Return (py "  We will send a plumber today. ")])
         faucet_request world0)
  = Return (Success URGENT (py "We will send a plumber today.")).
Proof. reflexivity. Qed.

(** The talkative classifier: the request ends with ["IGNORE"] after one
    call to the model, and the category is the whole sentence. *)
Example scenario_verbose_spam :
  let run := run_agent ascii_table (llm_says verbose_spam)
               faucet_request world0 in
  fst run = Return (Success (py "THIS LOOKS LIKE SPAM CONTENT") IGNORE) /\
  List.length (llm_log (snd run)) = 1%nat.
Proof. split; reflexivity. Qed.

(** The classifier answers the empty string: [OTHER], and node 2 drafts. *)
Example scenario_empty_answer :
  let run := run_agent ascii_table
               (llm_script [Return []; Return (py "Thanks, noted.")])
               faucet_request world0 in
  fst run = Return (Success OTHER (py "Thanks, noted.")) /\
  List.length (llm_log (snd run)) = 2%nat.
Proof. split; reflexivity. Qed.

(** The server is down throughout: both fall-backs, and still a success. *)
Example scenario_server_down :
  fst (post_agent_run ascii_table llm_down faucet_request world0)
  = mkHttp 200 (Some (Success OTHER FALLBACK_REPLY)).
Proof. reflexivity. Qed.

(** An input that opens with a lone surrogate: the error body, status 200,
    and not one call to the model. *)
Example scenario_unprintable_input :
  post_agent_run ascii_table (llm_says (py "LEAD"))
    (mkRequest lone_surrogate []) world0
  = (mkHttp 200 (Some (Error
       (py "'utf-8' codec can't encode character '\ud800' in position 18: surrogates not allowed"))),
     world0).
Proof. reflexivity. Qed.

(** The classifier's answer holds a lone surrogate after a label: the
    [print] of the category raises inside the [try], and the category is
    [OTHER]. *)
Example scenario_unprintable_answer :
  fst (analyze_email ascii_table (llm_says (py "lead " ++ lone_surrogate))
         faucet_state world0)
  = Return (UpdCategory OTHER).
Proof. reflexivity. Qed.

(** The client fails with a message that cannot be printed: the exception
    of the [print] leaves the graph, and the caller gets the error body. *)
Example scenario_unprintable_failure :
  fst (post_agent_run ascii_table llm_garbled faucet_request world0)
  = mkHttp 200 (Some (Error
      (py "'utf-8' codec can't encode character '\ud800' in position 34: surrogates not allowed"))).
Proof. reflexivity. Qed.

(** A workflow that raises: the error body, with status 200. *)
Example scenario_broken_workflow :
  fst (post_agent_run_with broken_workflow faucet_request world0)
  = mkHttp 200 (Some (Error (py "'category'"))).
Proof. reflexivity. Qed.
(** ** More about the sanitizer *)

(** [strip] against white space around a text. *)
Module PaddingFacts.

Lemma all_space_rev (s : str) :
  forallb isspace (rev s) = forallb isspace s.
Proof.
  induction s as [|c t IH]; [reflexivity|].
  simpl. rewrite forallb_app, IH. simpl.
  rewrite andb_true_r. apply andb_comm.
Qed.

Lemma lstrip_all_space (s : str) :
  forallb isspace s = true -> lstrip s = [].
Proof.
  induction s as [|c t IH]; simpl; [reflexivity|].
  destruct (isspace c); simpl; [exact IH | discriminate].
Qed.

(** What [lstrip] drops is white space, and only a prefix. *)
Lemma lstrip_split (s : str) :
  exists l, s = l ++ lstrip s /\ forallb isspace l = true.
Proof.
  induction s as [|c t (l & E & Hl)]; simpl.
  - exists []. split; reflexivity.
  - destruct (isspace c) eqn:Hc.
    + exists (c :: l). simpl. rewrite Hc, Hl, <- E. split; reflexivity.
    + exists []. split; reflexivity.
Qed.

Lemma rstrip_split (s : str) :
  exists r, s = rstrip s ++ r /\ forallb isspace r = true.
Proof.
  destruct (lstrip_split (rev s)) as (l & E & Hl).
  exists (rev l). split.
  - unfold rstrip. rewrite <- rev_app_distr, <- E, rev_involutive. reflexivity.
  - rewrite all_space_rev. exact Hl.
Qed.

Lemma lstrip_pad (l s : str) :
  forallb isspace l = true -> lstrip (l ++ s) = lstrip s.
Proof.
  induction l as [|c t IH]; simpl; [reflexivity|].
  destruct (isspace c); simpl; [exact IH | discriminate].
Qed.

Lemma rstrip_pad (s r : str) :
  forallb isspace r = true -> rstrip (s ++ r) = rstrip s.
Proof.
  intros Hr. unfold rstrip. rewrite rev_app_distr, lstrip_pad; [reflexivity|].
  rewrite all_space_rev. exact Hr.
Qed.

(** [lstrip] stops inside the first text unless that text is all white
    space. *)
Lemma lstrip_app (s r : str) :
  lstrip (s ++ r) =
    if forallb isspace s then lstrip r else lstrip s ++ r.
Proof.
  induction s as [|c t IH]; simpl; [reflexivity|].
  destruct (isspace c); simpl; [exact IH | reflexivity].
Qed.

Lemma strip_pad (l s r : str) :
  forallb isspace l = true -> forallb isspace r = true ->
  strip (l ++ s ++ r) = strip s.
Proof.
  intros Hl Hr. unfold strip.
  rewrite (lstrip_pad _ _ Hl), lstrip_app.
  destruct (forallb isspace s) eqn:Hs.
  - rewrite (lstrip_all_space _ Hr), (lstrip_all_space _ Hs). reflexivity.
  - apply rstrip_pad, Hr.
Qed.

End PaddingFacts.

(** X1: whatever the text, [clean_reply] returns a text that neither starts
    nor ends with a white-space code point. *)
Theorem clean_reply_ends_are_not_space (x : str) :
  (forall c t, clean_reply x = c :: t -> isspace c = false) /\
  (forall t c, clean_reply x = t ++ [c] -> isspace c = false).
Proof.
  unfold clean_reply. split.
  - intros c t E. exact (StripFacts.strip_head x c t E).
  - intros t c E. exact (StripFacts.strip_last x t c E).
Qed.

(** X2: [clean_reply] only trims: the text is the sanitized text with white
    space before it and white space after it; nothing inside is touched. *)
Theorem clean_reply_only_trims (x : str) :
  exists l r,
    x = l ++ clean_reply x ++ r /\
    forallb isspace l = true /\ forallb isspace r = true.
Proof.
  unfold clean_reply, strip.
  destruct (PaddingFacts.lstrip_split x) as (l & El & Hl).
  destruct (PaddingFacts.rstrip_split (lstrip x)) as (r & Er & Hr).
  exists l, r. split; [|split; assumption].
  rewrite <- Er. exact El.
Qed.

(** X3: the sanitized text is empty exactly when the text is white space
    only (the empty text included). *)
Theorem clean_reply_empty_iff (x : str) :
  clean_reply x = [] <-> forallb isspace x = true.
Proof.
  split.
  - unfold clean_reply, strip. intros E.
    destruct (PaddingFacts.lstrip_split x) as (l & El & Hl).
    destruct (PaddingFacts.rstrip_split (lstrip x)) as (r & Er & Hr).
    rewrite E in Er. simpl in Er. rewrite Er in El.
    rewrite El, forallb_app, Hl, Hr. reflexivity.
  - intros H. unfold clean_reply, strip.
    rewrite (PaddingFacts.lstrip_all_space _ H). reflexivity.
Qed.

(** X4: white space added around a text does not change what [clean_reply]
    makes of it. *)
Theorem clean_reply_ignores_padding (l x r : str) :
  forallb isspace l = true -> forallb isspace r = true ->
  clean_reply (l ++ x ++ r) = clean_reply x.
Proof.
  intros Hl Hr. unfold clean_reply. apply PaddingFacts.strip_pad; assumption.
Qed.

(** ** Python's [in] on texts *)

Module ContainsFacts.

Lemma startswith_app (p r : str) : startswith (p ++ r) p = true.
Proof.
  induction p as [|a p IH]; simpl; [destruct r; reflexivity|].
  rewrite N.eqb_refl. exact IH.
Qed.

Lemma contains_here (sub s : str) :
  startswith s sub = true -> contains sub s = true.
Proof. intros H. destruct s; cbn [contains]; rewrite H; reflexivity. Qed.

Lemma contains_head (sub r : str) : contains sub (sub ++ r) = true.
Proof. apply contains_here, startswith_app. Qed.

Lemma contains_later (sub l s : str) :
  contains sub s = true -> contains sub (l ++ s) = true.
Proof.
  intros H. induction l as [|a l IH]; [exact H|].
  cbn [app contains]. rewrite IH. apply orb_true_r.
Qed.

(** Only the empty text occurs in the empty text. *)
Lemma contains_in_empty (sub : str) : contains sub [] = true -> sub = [].
Proof. destruct sub; [reflexivity | discriminate]. Qed.

End ContainsFacts.

Ltac find_embedded :=
  repeat first [ apply ContainsFacts.contains_head
               | apply ContainsFacts.contains_later ].

(** X5: the prompt of node 1 carries the history and the email word for
    word, whatever they are: nothing is escaped, cut or encoded. *)
Theorem analyze_prompt_embeds_inputs (history_text email_text : str) :
  contains history_text (analyze_prompt history_text email_text) = true /\
  contains email_text (analyze_prompt history_text email_text) = true.
Proof. unfold analyze_prompt. split; find_embedded. Qed.

(** X6: the prompt of node 2 carries the category, the history, the email
    and the scheduling link word for word. *)
Theorem draft_prompt_embeds_inputs (category history_text email_text : str) :
  let prompt := draft_prompt category history_text email_text in
  contains category prompt = true /\
  contains history_text prompt = true /\
  contains email_text prompt = true /\
  contains CALENDLY_LINK prompt = true.
Proof. unfold draft_prompt. cbv zeta. repeat split; find_embedded. Qed.


(** ** Whole runs of the graph and of the endpoint *)

Section AgentRuns.

Variable upper_full : codepoint -> str.
Variable llm : list exchange -> str -> result str.

Local Abbreviation prompt1 st :=
  (analyze_prompt (get_history st) (email_content st)).

(** The client, if it fails on the categorize prompt, fails with a message
    that can be printed. *)
Local Abbreviation failure_printable st w :=
  (forall e, llm (llm_log w) (prompt1 st) = Raise e ->
             utf8_encodable (message e) = true).

(** The two nodes in sequence. *)
Lemma app_agent_invoke_run (st : AgentState) (w : World) :
  failure_printable st w ->
  exists c r w',
    app_agent_invoke upper_full llm st w =
      (Return (mkState (email_content st) (history st) c r), w') /\
    any_valid_in c = true /\
    utf8_encodable c = true /\
    clean_reply r = r /\
    (contains SPAM c = true -> r = IGNORE) /\
    llm_log w' =
      (llm_log w ++ [(prompt1 st, llm (llm_log w) (prompt1 st))]) ++
      (if contains SPAM c then []
       else [(draft_prompt c (get_history st) (email_content st),
              llm (llm_log w ++ [(prompt1 st, llm (llm_log w) (prompt1 st))])
                  (draft_prompt c (get_history st) (email_content st)))]).
Proof.
  intros Hmsg.
  destruct (analyze_email_run upper_full llm st w Hmsg)
    as (c & w1 & E1 & Hany & Henc & _ & Hlog1).
  destruct (draft_reply_run llm (merge st (UpdCategory c)) w1 Henc)
    as (r & w2 & E2 & Hclean & Hspam & Hlog2).
  exists c, r, w2.
  split; [|split; [|split; [|split; [|split]]]];
    try assumption.
  - unfold app_agent_invoke, bind, ret. rewrite E1, E2. reflexivity.
  - rewrite Hlog2, Hlog1. reflexivity.
Qed.

(** The log of a run of the graph opens with the categorize call, however
    the run ends. *)
Lemma app_agent_invoke_log (st : AgentState) (w : World) :
  exists rest,
    llm_log (snd (app_agent_invoke upper_full llm st w)) =
      llm_log w ++ (prompt1 st, llm (llm_log w) (prompt1 st)) :: rest.
Proof.
  pose proof (analyze_email_log upper_full llm st w) as Hlog1.
  unfold app_agent_invoke, bind, ret.
  destruct (analyze_email upper_full llm st w) as [[u1|e1] w1];
    cbn [snd] in Hlog1.
  - destruct (draft_reply_log_grows llm (merge st u1) w1) as (more & Hlog2).
    destruct (draft_reply llm (merge st u1) w1) as [[u2|e2] w2];
      cbn [snd] in Hlog2 |- *; exists more;
      rewrite Hlog2, Hlog1, <- app_assoc; reflexivity.
  - exists []. cbn [snd]. exact Hlog1.
Qed.

(** X7: node 1 sends exactly one prompt to the model, whether the model
    answers or fails: there is no retry and no way around the call. *)
Theorem analyze_email_calls_model_once (st : AgentState) (w : World) :
  llm_log (snd (analyze_email upper_full llm st w)) =
    llm_log w ++ [(prompt1 st, llm (llm_log w) (prompt1 st))].
Proof.
  destruct (llm (llm_log w) (prompt1 st)) as [out|e] eqn:Hllm.
  - destruct (utf8_encodable
                (if negb (any_valid_in (normalize upper_full out)) then OTHER
                 else normalize upper_full out)) eqn:Henc.
    + rewrite (analyze_email_answered upper_full llm st w out Hllm Henc).
      reflexivity.
    + rewrite (analyze_email_unprintable_answer upper_full llm st w out
                 Hllm Henc).
      reflexivity.
  - destruct (utf8_encodable (message e)) eqn:Henc.
    + rewrite (analyze_email_failed upper_full llm st w e Hllm Henc).
      reflexivity.
    + rewrite (analyze_email_failure_escapes upper_full llm st w e Hllm Henc).
      reflexivity.
Qed.

(** X8: for a category that can be printed, node 2 returns, and the reply it
    hands over is already sanitized: it is the sentinel, the fixed
    acknowledgment, or a sanitized answer, and [clean_reply] leaves each of
    them as it is. *)
Theorem draft_reply_reply_is_sanitized (st : AgentState) (w : World) :
  utf8_encodable (category st) = true ->
  exists r,
    fst (draft_reply llm st w) = Return (UpdReply r) /\ clean_reply r = r.
Proof.
  intros Henc.
  destruct (draft_reply_run llm st w Henc) as (r & w2 & E & Hclean & _).
  exists r. rewrite E. split; [reflexivity | exact Hclean].
Qed.

(** X9: unless the client fails on the categorize prompt with a message that
    cannot be printed, the graph reaches its end, and what it returns has
    the email and the history it was given: the nodes write the category and
    the reply only. *)
Theorem app_agent_invoke_keeps_inputs (st : AgentState) (w : World) :
  failure_printable st w ->
  exists final,
    fst (app_agent_invoke upper_full llm st w) = Return final /\
    email_content final = email_content st /\
    history final = history st.
Proof.
  intros Hmsg.
  destruct (app_agent_invoke_run st w Hmsg) as (c & r & w' & E & _).
  eexists. rewrite E. repeat split.
Qed.

(** X10: what a run of the graph costs, unless the client fails on the
    categorize prompt with a message that cannot be printed: one call to the
    model when the category it ends with has [SPAM] in it, two calls
    otherwise (never none, never a third), and the second call is the
    drafting prompt built from that category. *)
Theorem app_agent_invoke_model_calls (st : AgentState) (w : World) :
  failure_printable st w ->
  exists final w',
    app_agent_invoke upper_full llm st w = (Return final, w') /\
    llm_log w' =
      (llm_log w ++ [(prompt1 st, llm (llm_log w) (prompt1 st))]) ++
      (if contains SPAM (category final) then []
       else [(draft_prompt (category final) (get_history st) (email_content st),
              llm (llm_log w ++ [(prompt1 st, llm (llm_log w) (prompt1 st))])
                  (draft_prompt (category final) (get_history st)
                                (email_content st)))]).
Proof.
  intros Hmsg.
  destruct (app_agent_invoke_run st w Hmsg)
    as (c & r & w' & E & _ & _ & _ & _ & Hlog).
  do 2 eexists. split; [exact E|]. exact Hlog.
Qed.


(** X12: through the endpoint the history key is always set, so the default
    of [state.get('history', 'No previous history.')] is never used: for a
    request whose first line can be printed, the first prompt sent to the
    model quotes the history the request holds as it is, be it the empty
    text. *)
Theorem post_agent_run_first_prompt (q : RequestData) (w : World) :
  utf8_encodable (slice_to 50 (input q)) = true ->
  exists rest,
    llm_log (snd (post_agent_run upper_full llm q w)) =
      llm_log w ++
      (analyze_prompt (req_history q) (input q),
       llm (llm_log w) (analyze_prompt (req_history q) (input q))) :: rest.
Proof.
  intros Hline.
  destruct (app_agent_invoke_log (initial_state_of q) (announced_request q w))
    as (rest & Hlog).
  exists rest. unfold post_agent_run.
  rewrite (post_agent_run_with_eq _ q w Hline).
  destruct (app_agent_invoke upper_full llm (initial_state_of q)
              (announced_request q w)) as [[final|e] w'];
    cbn [snd] in Hlog.
  - destruct (utf8_encodable (category final)
              && utf8_encodable (generated_reply final)); exact Hlog.
  - destruct (utf8_encodable (message e)); exact Hlog.
Qed.

(** X13: when the model server fails on every call, with messages that can
    be printed, the caller of a request whose first line can be printed
    cannot tell: the endpoint answers 200 with category [OTHER] and the
    fixed acknowledgment. *)
Theorem post_agent_run_during_outage (q : RequestData) (w : World) :
  utf8_encodable (slice_to 50 (input q)) = true ->
  (forall log prompt,
     exists e, llm log prompt = Raise e /\ utf8_encodable (message e) = true) ->
  fst (post_agent_run upper_full llm q w)
    = mkHttp 200 (Some (Success OTHER FALLBACK_REPLY)).
Proof.
  intros Hline Hdown. unfold post_agent_run.
  rewrite (post_agent_run_with_eq _ q w Hline).
  set (st := initial_state_of q). set (w0 := announced_request q w).
  destruct (Hdown (llm_log w0) (prompt1 st)) as (e1 & H1 & Henc1).
  unfold app_agent_invoke, bind, ret.
  rewrite (analyze_email_failed upper_full llm st w0 e1 H1 Henc1).
  set (st1 := merge st (UpdCategory OTHER)).
  match goal with
  | |- context [draft_reply llm st1 ?w1] =>
      rewrite (draft_reply_calls llm st1 w1 eq_refl eq_refl);
      destruct (Hdown (llm_log w1)
                  (draft_prompt (category st1) (get_history st1)
                                (email_content st1))) as (e2 & H2 & _);
      rewrite H2
  end.
  reflexivity.
Qed.

End AgentRuns.

(** ** Node 1 and white space around the model's answer *)

Section AnswerPadding.

Variable upper_full : codepoint -> str.

Local Abbreviation prompt1 st :=
  (analyze_prompt (get_history st) (email_content st)).

Lemma normalize_pad (l out r : str) :
  forallb isspace l = true -> forallb isspace r = true ->
  normalize upper_full (l ++ out ++ r) = normalize upper_full out.
Proof.
  intros Hl Hr. unfold normalize.
  rewrite (PaddingFacts.strip_pad l out r Hl Hr). reflexivity.
Qed.

(** The four labels are their own normal form and pass the validation. *)
Lemma normalize_label (label : str) :
  In label valid ->
  normalize upper_full label = label /\ any_valid_in label = true.
Proof.
  intros Hin. simpl in Hin.
  destruct Hin as [<- | [<- | [<- | [<- | []]]]]; split; reflexivity.
Qed.

(** The category of node 1 as a function of the answer. *)
Lemma analyze_email_category_of_answer
    (llm : list exchange -> str -> result str)
    (st : AgentState) (w : World) (out : str) :
  llm (llm_log w) (prompt1 st) = Return out ->
  let c := if negb (any_valid_in (normalize upper_full out)) then OTHER
           else normalize upper_full out in
  fst (analyze_email upper_full llm st w) =
    Return (UpdCategory (if utf8_encodable c then c else OTHER)).
Proof.
  intros Hllm c. subst c.
  destruct (utf8_encodable _) eqn:Henc.
  - rewrite (analyze_email_answered upper_full llm st w out Hllm Henc).
    reflexivity.
  - rewrite (analyze_email_unprintable_answer upper_full llm st w out
               Hllm Henc).
    reflexivity.
Qed.

(** X14: white space the model puts around its answer (a trailing new line,
    say) has no effect on the category: a server that answers with the
    padded text and a server that answers with the text alone lead node 1 to
    the same result. *)
Theorem analyze_email_ignores_padding
    (llm_padded llm_bare : list exchange -> str -> result str)
    (st : AgentState) (w : World) (l out r : str) :
  forallb isspace l = true -> forallb isspace r = true ->
  llm_padded (llm_log w) (prompt1 st) = Return (l ++ out ++ r) ->
  llm_bare (llm_log w) (prompt1 st) = Return out ->
  fst (analyze_email upper_full llm_padded st w)
    = fst (analyze_email upper_full llm_bare st w).
Proof.
  intros Hl Hr Hpadded Hbare.
  rewrite (analyze_email_category_of_answer llm_padded st w _ Hpadded).
  rewrite (analyze_email_category_of_answer llm_bare st w _ Hbare).
  rewrite (normalize_pad l out r Hl Hr). reflexivity.
Qed.

Variable llm : list exchange -> str -> result str.

(** X15: when the model does what the prompt asks and answers with one of
    the four category names, alone but for white space around it, the
    category is that name. *)
Theorem analyze_email_label_answer
    (st : AgentState) (w : World) (l label r : str) :
  In label valid ->
  forallb isspace l = true -> forallb isspace r = true ->
  llm (llm_log w) (prompt1 st) = Return (l ++ label ++ r) ->
  fst (analyze_email upper_full llm st w) = Return (UpdCategory label).
Proof.
  intros Hin Hl Hr Hllm.
  destruct (normalize_label label Hin) as [Hnorm Hany].
  rewrite (analyze_email_category_of_answer llm st w _ Hllm).
  rewrite (normalize_pad l label r Hl Hr), Hnorm, Hany. cbn [negb].
  rewrite (EncodingFacts.label_encodable label Hin). reflexivity.
Qed.

End AnswerPadding.

(** ** The further theorems at concrete inputs *)

(** X1 at a text with blanks around it. *)
Lemma clean_reply_ends_are_not_space_witness :
  clean_reply (py "  Hi. ") = py "Hi." /\
  isspace 72 = false /\ isspace 46 = false.
Proof.
  split; [reflexivity|]. split.
  - apply (proj1 (clean_reply_ends_are_not_space (py "  Hi. ")) 72 (py "i.")).
    reflexivity.
  - apply (proj2 (clean_reply_ends_are_not_space (py "  Hi. ")) (py "Hi") 46).
    reflexivity.
Defined.

(** X4 at an answer between a tab and a new line. *)
Lemma clean_reply_ignores_padding_witness :
  clean_reply ([9] ++ py "See you Monday." ++ newline)
    = clean_reply (py "See you Monday.").
Proof.
  apply (clean_reply_ignores_padding [9] (py "See you Monday.") newline);
    reflexivity.
Defined.

(** X8 at category [URGENT] with the server down. *)
Lemma draft_reply_reply_is_sanitized_witness :
  exists r,
    fst (draft_reply llm_down urgent_state world0) = Return (UpdReply r) /\
    clean_reply r = r.
Proof.
  apply (draft_reply_reply_is_sanitized llm_down urgent_state world0).
  reflexivity.
Defined.

(** X9 with the server down: its message can be printed. *)
Lemma app_agent_invoke_keeps_inputs_witness :
  exists final,
    fst (app_agent_invoke ascii_table llm_down faucet_state world0)
      = Return final /\
    email_content final = py "Please fix my leaking faucet ASAP" /\
    history final = Some [].
Proof.
  apply (app_agent_invoke_keeps_inputs ascii_table llm_down
           faucet_state world0).
  intros e He. injection He as <-. reflexivity.
Defined.

(** X10 with a classifier that answers "lead" and a drafter that answers:
    two calls. *)
Lemma app_agent_invoke_model_calls_witness :
  exists final w',
    app_agent_invoke ascii_table
      (llm_script [Return (py "lead"); Return (py "Thanks, noted.")])
      faucet_state world0 = (Return final, w') /\
    category final = LEAD /\
    List.length (llm_log w') = 2%nat.
Proof.
  destruct (app_agent_invoke_model_calls ascii_table
              (llm_script [Return (py "lead"); Return (py "Thanks, noted.")])
              faucet_state world0)
    as (final & w' & E & Hlog).
  - intros e He. discriminate He.
  - exists final, w'. split; [exact E|].
    assert (Hfinal : final = mkState (py "Please fix my leaking faucet ASAP")
                               (Some []) LEAD (py "Thanks, noted.")).
    { apply (f_equal fst) in E. cbn [fst] in E.
      injection E as <-. reflexivity. }
    subst final. split; [reflexivity|].
    rewrite Hlog. reflexivity.
Defined.


(** X12 with a request whose history is empty. *)
Lemma post_agent_run_first_prompt_witness :
  exists rest,
    llm_log (snd (post_agent_run ascii_table (llm_says (py "LEAD"))
                    faucet_request world0)) =
      [] ++
      (analyze_prompt [] (py "Please fix my leaking faucet ASAP"),
       Return (py "LEAD")) :: rest.
Proof.
  apply (post_agent_run_first_prompt ascii_table (llm_says (py "LEAD"))
           faucet_request world0).
  reflexivity.
Defined.

(** X13 with the server that cannot be reached. *)
Lemma post_agent_run_during_outage_witness :
  fst (post_agent_run ascii_table llm_down faucet_request world0)
    = mkHttp 200 (Some (Success OTHER FALLBACK_REPLY)).
Proof.
  apply (post_agent_run_during_outage ascii_table llm_down
           faucet_request world0).
  - reflexivity.
  - intros log prompt. exists (Exception (py "connection refused")).
    split; reflexivity.
Defined.

(** X14 at an answer with a blank before it and a new line after it. *)
Lemma analyze_email_ignores_padding_witness :
  fst (analyze_email ascii_table
         (llm_says ([32] ++ py "probably a lead" ++ newline))
         faucet_state world0)
    = fst (analyze_email ascii_table (llm_says (py "probably a lead"))
             faucet_state world0) /\
  fst (analyze_email ascii_table (llm_says (py "probably a lead"))
         faucet_state world0)
    = Return (UpdCategory (py "PROBABLY A LEAD")).
Proof.
  split; [|reflexivity].
  apply (analyze_email_ignores_padding ascii_table
           (llm_says ([32] ++ py "probably a lead" ++ newline))
           (llm_says (py "probably a lead"))
           faucet_state world0 [32] (py "probably a lead") newline);
    reflexivity.
Defined.

(** X15 at the answer "LEAD" followed by a new line. *)
Lemma analyze_email_label_answer_witness :
  fst (analyze_email ascii_table (llm_says ([] ++ LEAD ++ newline))
         faucet_state world0)
    = Return (UpdCategory LEAD).
Proof.
  apply (analyze_email_label_answer ascii_table
           (llm_says ([] ++ LEAD ++ newline)) faucet_state world0
           [] LEAD newline);
    [simpl; auto | reflexivity | reflexivity | reflexivity].
Defined.
